(** * cert-manager-webhook-gandi: the DNS-01 solver of main.go

    A shallow embedding of [main.go] and the properties of its domain
    splitting, credential loading and record reconciliation.

    Go strings are byte sequences and are modelled by [string]; a [[]byte]
    is a [list byte]; Go's [int] is [Z]; a Go [error] is [option string]
    (its message, [None] for [nil]); a run-time panic of a pure function is
    [None] of an [option]. *)

From Stdlib Require Import ZArith Ascii Strings.Byte.
From stdpp Require Import base option list strings gmap.

Local Open Scope Z_scope.

(** ** The functions of Go's [strings] package that main.go calls *)

Module GoStrings.

(** [s[lo:hi]] on a string, for [lo <= hi <= len(s)]. *)
Definition substr (s : string) (lo hi : nat) : string :=
  String.substring lo (hi - lo) s.

(** [strings.HasSuffix]:
    [len(s) >= len(suffix) && s[len(s)-len(suffix):] == suffix]. *)
Definition HasSuffix (s suffix : string) : bool :=
  (String.length suffix <=? String.length s)%nat
  && String.eqb
       (substr s (String.length s - String.length suffix) (String.length s))
       suffix.

(** [strings.TrimSuffix]:
    [if HasSuffix(s, suffix) { return s[:len(s)-len(suffix)] }; return s]. *)
Definition TrimSuffix (s suffix : string) : string :=
  if HasSuffix s suffix
  then substr s 0 (String.length s - String.length suffix)
  else s.

(** [trimLeftByte]: drop the leading bytes equal to [c]. *)
Fixpoint trimLeftByte (s : string) (c : ascii) : string :=
  match s with
  | EmptyString => EmptyString
  | String a s' => if Ascii.eqb a c then trimLeftByte s' c else s
  end.

(** [trimRightByte]: drop the trailing bytes equal to [c]. *)
Fixpoint trimRightByte (s : string) (c : ascii) : string :=
  match s with
  | EmptyString => EmptyString
  | String a s' =>
      match trimRightByte s' c with
      | EmptyString => if Ascii.eqb a c then EmptyString else String a EmptyString
      | r => String a r
      end
  end.

(** [strings.Trim(s, cutset)] for a cutset of one ASCII byte, the path
    [trimLeftByte(trimRightByte(s, cutset[0]), cutset[0])] of the library;
    main.go only ever passes the cutset of one dot. *)
Definition Trim (s : string) (cutset : ascii) : string :=
  trimLeftByte (trimRightByte s cutset) cutset.

(** [strings.Split(s, sep)] for a separator of one byte: the substrings
    between the occurrences of [sep], in order; a string without [sep] (the
    empty one too) gives the one-element slice holding it. *)
Fixpoint Split (s : string) (sep : ascii) : list string :=
  match s with
  | EmptyString => [EmptyString]
  | String a s' =>
      if Ascii.eqb a sep then EmptyString :: Split s' sep
      else match Split s' sep with
           | [] => [String a EmptyString]
           | p :: ps => String a p :: ps
           end
  end.

(** [strings.Join(elems, sep)]. *)
Fixpoint Join (elems : list string) (sep : string) : string :=
  match elems with
  | [] => EmptyString
  | e :: rest =>
      match rest with
      | [] => e
      | _ :: _ => e +:+ sep +:+ Join rest sep
      end
  end.

End GoStrings.

Import GoStrings.

(** ** Slices *)

(** [len(l)] as a Go [int]. *)
Definition len {A : Type} (l : list A) : Z := Z.of_nat (length l).

(** [l[i]]: an index outside [0 <= i < len(l)] panics. *)
Definition index {A : Type} (l : list A) (i : Z) : option A :=
  if (0 <=? i) && (i <? len l) then l !! Z.to_nat i else None.

(** [l[lo:hi]]: bounds outside [0 <= lo <= hi <= len(l)] panic (the slices
    sliced in main.go have their capacity equal to their length). *)
Definition slice {A : Type} (l : list A) (lo hi : Z) : option (list A) :=
  if (0 <=? lo) && (lo <=? hi) && (hi <=? len l)
  then Some (take (Z.to_nat (hi - lo)) (drop (Z.to_nat lo) l))
  else None.

(** ** Errors *)

Definition error : Type := option string.
Definition nil : error := None.

Definition dot : ascii := "."%char.

(** ** extractRootAndSubDomain (main.go, lines 81-86) *)

Definition extractRootAndSubDomain (fqdn entry : string)
  : option (string * string * error) :=
  let parts := Split (Trim fqdn dot) dot in
  a ← index parts (len parts - 2);
  b ← index parts (len parts - 1);
  let domain := a +:+ "." +:+ b in
  rest ← slice parts 0 (len parts - 2);
  Some (domain, Join (Trim entry dot :: rest) ".", nil).

(** ** The types main.go imports, with the fields it reads *)

(** [extapi.JSON]: the raw bytes of the per-issuer configuration. *)
Module extapi.
Record JSON : Type := { Raw : list byte }.
End extapi.

(** [v1alpha1.ChallengeRequest]; [Config] is a pointer, [None] when nil. *)
Module v1alpha1.
Record ChallengeRequest : Type := {
  ResourceNamespace : string;
  ResolvedZone : string;
  ResolvedFQDN : string;
  Key : string;
  Config : option extapi.JSON
}.
End v1alpha1.

(** [cmmeta.SecretKeySelector], which embeds a [LocalObjectReference]. *)
Module cmmeta.
Record LocalObjectReference_t : Type := { Name : string }.
Record SecretKeySelector : Type := {
  LocalObjectReference : LocalObjectReference_t;
  Key : string
}.
End cmmeta.

(** [corev1.Secret]: its [Data] maps a key name to bytes. *)
Module corev1.
Record Secret : Type := { Data : gmap string (list byte) }.
End corev1.

(** The configuration of a go-gandi client. *)
Module config.
Record Config : Type := { APIKey : string; Debug : bool; DryRun : bool }.
End config.

(** go-gandi's LiveDNS client and the values its calls return. *)
Module livedns.
Record LiveDNS : Type := { client_config : config.Config }.
Record DomainRecord : Type := {
  RrsetType : string;
  RrsetTTL : Z;
  RrsetName : string;
  RrsetValues : list string
}.
Record StandardResponse : Type := { Code : Z; Message : string }.
End livedns.

Module gandi.
Definition NewLiveDNSClient (c : config.Config) : livedns.LiveDNS :=
  {| livedns.client_config := c |}.
End gandi.

(** ** getDomainAndEntry (main.go, lines 226-232) *)

(** Returns (entry, domain), in the order of the source. *)
Definition getDomainAndEntry (ch : v1alpha1.ChallengeRequest) : string * string :=
  let entry := TrimSuffix (v1alpha1.ResolvedFQDN ch) (v1alpha1.ResolvedZone ch) in
  let entry := TrimSuffix entry "." in
  let domain := TrimSuffix (v1alpha1.ResolvedZone ch) "." in
  (entry, domain).


(** ** Programs that call the two remote services

    [Present], [CleanUp] and [getApiKey] talk to the Kubernetes API server
    and to the provider. A program is a tree: it returns, panics, or makes
    one remote call and goes on with the answer. The solver's clientset is
    the one [Initialize] stored; it is the same for every call and is left
    out of the call's arguments. *)

Inductive call : Type -> Type :=
| SecretsGet (namespace name : string) : call (corev1.Secret * error)
| GetDomainRecordByNameAndType
    (cl : livedns.LiveDNS) (fqdn name recordtype : string)
  : call (livedns.DomainRecord * error)
| CreateDomainRecord
    (cl : livedns.LiveDNS) (fqdn name recordtype : string) (ttl : Z)
    (values : list string)
  : call (livedns.StandardResponse * error)
| UpdateDomainRecordByNameAndType
    (cl : livedns.LiveDNS) (fqdn name recordtype : string) (ttl : Z)
    (values : list string)
  : call (livedns.StandardResponse * error)
| DeleteDomainRecord (cl : livedns.LiveDNS) (fqdn name recordtype : string)
  : call error.

Inductive Prog (A : Type) : Type :=
| Ret (a : A)
| Panic
| Do (X : Type) (c : call X) (k : X -> Prog A).

Arguments Ret {A} a.
Arguments Panic {A}.
Arguments Do {A X} c k.

Fixpoint bind {A B : Type} (p : Prog A) (f : A -> Prog B) : Prog B :=
  match p with
  | Ret a => f a
  | Panic => Panic
  | Do c k => Do c (fun x => bind (k x) f)
  end.

#[global] Instance Prog_ret : MRet Prog := @Ret.
#[global] Instance Prog_bind : MBind Prog := fun A B f p => bind p f.

(** One remote call, returning its answer. *)
Definition remote {X : Type} (c : call X) : Prog X := Do c Ret.

(** A pure step that may panic. *)
Definition lift {A : Type} (o : option A) : Prog A :=
  match o with
  | Some a => Ret a
  | None => Panic
  end.

(** ** Running a program against an environment *)

(** One remote call with the answer it got. *)
Inductive Call : Type :=
| CSecretsGet (namespace name : string) (r : corev1.Secret * error)
| CGet (cl : livedns.LiveDNS) (fqdn name recordtype : string)
    (r : livedns.DomainRecord * error)
| CCreate (cl : livedns.LiveDNS) (fqdn name recordtype : string) (ttl : Z)
    (values : list string) (r : livedns.StandardResponse * error)
| CUpdate (cl : livedns.LiveDNS) (fqdn name recordtype : string) (ttl : Z)
    (values : list string) (r : livedns.StandardResponse * error)
| CDelete (cl : livedns.LiveDNS) (fqdn name recordtype : string) (r : error).

Definition logged {X : Type} (c : call X) : X -> Call :=
  match c in call X return X -> Call with
  | SecretsGet ns n => CSecretsGet ns n
  | GetDomainRecordByNameAndType cl f n t => CGet cl f n t
  | CreateDomainRecord cl f n t ttl vs => CCreate cl f n t ttl vs
  | UpdateDomainRecordByNameAndType cl f n t ttl vs => CUpdate cl f n t ttl vs
  | DeleteDomainRecord cl f n t => CDelete cl f n t
  end.

(** How a call of the program ends. *)
Inductive outcome (A : Type) : Type :=
| Returned (a : A)
| Panicked.

Arguments Returned {A} a.
Arguments Panicked {A}.

(** The remote services: each call is answered from the state [W] of the
    services, which the call may change. *)
Definition env (W : Type) : Type := forall X : Type, call X -> W -> X * W.

(** [run h p w]: how [p] ends, the calls it made in order, and the state of
    the services afterwards. *)
Fixpoint run {W A : Type} (h : env W) (p : Prog A) (w : W)
  : outcome A * list Call * W :=
  match p with
  | Ret a => (Returned a, [], w)
  | Panic => (Panicked, [], w)
  | Do c k =>
      let '(x, w1) := h _ c w in
      let '(o, t, w2) := run h (k x) w1 in
      (o, logged c x :: t, w2)
  end.

(** ** The solver (main.go) *)

Definition GandiMinTtl : Z := 300.

(** [gandiDNSProviderConfig], decoded from the challenge's configuration. *)
Record gandiDNSProviderConfig : Type := {
  APIKeySecretRef : cmmeta.SecretKeySelector
}.

(** [gandiDNSProviderConfig{}], the zero value. *)
Definition zero_config : gandiDNSProviderConfig :=
  {| APIKeySecretRef :=
       {| cmmeta.LocalObjectReference := {| cmmeta.Name := "" |};
          cmmeta.Key := "" |} |}.

(** The double quote, as a string. *)
Definition dquote : string := String "034"%char EmptyString.

Definition Name : string := "gandi".

Section Solver.

(** [json.Unmarshal(raw, &cfg)] of encoding/json: from the bytes and the
    value [cfg] holds, the value it holds afterwards and the error. *)
Variable json_Unmarshal :
  list byte -> gandiDNSProviderConfig -> gandiDNSProviderConfig * error.

(** What the verb [%q] of fmt prints for a string ([strconv.Quote]). *)
Variable strconv_Quote : string -> string.

(** loadConfig (main.go, lines 213-224). *)
Definition loadConfig (cfgJSON : option extapi.JSON)
  : gandiDNSProviderConfig * error :=
  let cfg := zero_config in
  match cfgJSON with
  | None => (cfg, nil)
  | Some j =>
      let '(cfg, err) := json_Unmarshal (extapi.Raw j) cfg in
      match err with
      | Some e => (cfg, Some ("error decoding solver config: " +:+ e))
      | None => (cfg, nil)
      end
  end.

(** getApiKey (main.go, lines 235-253); the [*string] it returns is [None]
    when nil. *)
Definition getApiKey (cfg : gandiDNSProviderConfig) (namespace : string)
  : Prog (option string * error) :=
  let secretName :=
    cmmeta.Name (cmmeta.LocalObjectReference (APIKeySecretRef cfg)) in
  '(sec, err) ← remote (SecretsGet namespace secretName);
  match err with
  | Some e =>
      Ret (None, Some ("unable to get secret `" +:+ secretName +:+ "`; " +:+ e))
  | None =>
      match corev1.Data sec !! cmmeta.Key (APIKeySecretRef cfg) with
      | None =>
          Ret (None,
               Some ("key " +:+ strconv_Quote (cmmeta.Key (APIKeySecretRef cfg))
                     +:+ " not found in secret " +:+ dquote
                     +:+ cmmeta.Name
                           (cmmeta.LocalObjectReference (APIKeySecretRef cfg))
                     +:+ "/" +:+ namespace +:+ dquote))
      | Some secBytes =>
          let apiKey := String.string_of_list_byte secBytes in
          Ret (Some apiKey, nil)
      end
  end.

(** Present (main.go, lines 93-141). The log lines are left out. *)
Definition Present (ch : v1alpha1.ChallengeRequest) : Prog error :=
  let '(cfg, err) := loadConfig (v1alpha1.Config ch) in
  match err with
  | Some e => Ret (Some ("unable to load config: " +:+ e))
  | None =>
  '(apiKey, err) ← getApiKey cfg (v1alpha1.ResourceNamespace ch);
  match err with
  | Some e => Ret (Some ("unable to get API key: " +:+ e))
  | None =>
  apiKey ← lift apiKey;
  let clientcfg :=
    {| config.APIKey := apiKey; config.Debug := false; config.DryRun := false |} in
  let gandiClient := gandi.NewLiveDNSClient clientcfg in
  let '(entry, domain) := getDomainAndEntry ch in
  '(root, subdomain, err) ← lift (extractRootAndSubDomain domain entry);
  match err with
  | Some e => Ret (Some ("unable to mange provided domain : " +:+ e))
  | None =>
  '(record, err) ←
    remote (GetDomainRecordByNameAndType gandiClient root subdomain "TXT");
  match err with
  | Some _ =>
      '(_, err) ←
        remote (CreateDomainRecord gandiClient root subdomain "TXT"
                  GandiMinTtl [v1alpha1.Key ch]);
      match err with
      | Some e => Ret (Some ("unable to create TXT record: " +:+ e))
      | None => Ret nil
      end
  | None =>
      if negb (String.eqb (Join (livedns.RrsetValues record) "")
                 (dquote +:+ v1alpha1.Key ch +:+ dquote))
      then
        '(_, err) ←
          remote (UpdateDomainRecordByNameAndType gandiClient root subdomain
                    "TXT" GandiMinTtl [v1alpha1.Key ch]);
        match err with
        | Some e => Ret (Some ("unable to update TXT record: " +:+ e))
        | None => Ret nil
        end
      else Ret nil
  end
  end
  end
  end.

(** CleanUp (main.go, lines 149-190). The log lines are left out. *)
Definition CleanUp (ch : v1alpha1.ChallengeRequest) : Prog error :=
  let '(cfg, err) := loadConfig (v1alpha1.Config ch) in
  match err with
  | Some e => Ret (Some ("unable to load config: " +:+ e))
  | None =>
  '(apiKey, err) ← getApiKey cfg (v1alpha1.ResourceNamespace ch);
  match err with
  | Some e => Ret (Some ("unable to get API key: " +:+ e))
  | None =>
  apiKey ← lift apiKey;
  let clientcfg :=
    {| config.APIKey := apiKey; config.Debug := true; config.DryRun := false |} in
  let gandiClient := gandi.NewLiveDNSClient clientcfg in
  let '(entry, domain) := getDomainAndEntry ch in
  '(root, subdomain, err) ← lift (extractRootAndSubDomain domain entry);
  match err with
  | Some e => Ret (Some ("unable to mange provided domain : " +:+ e))
  | None =>
  '(_, err) ←
    remote (GetDomainRecordByNameAndType gandiClient root subdomain "TXT");
  match err with
  | Some _ => Ret nil
  | None =>
      err ← remote (DeleteDomainRecord gandiClient root subdomain "TXT");
      match err with
      | Some e => Ret (Some ("unable to delete TXT record: " +:+ e))
      | None => Ret nil
      end
  end
  end
  end
  end.

End Solver.

(** ** Reading a run *)

Definition is_create (c : Call) : bool :=
  match c with CCreate _ _ _ _ _ _ _ => true | _ => false end.

Definition is_update (c : Call) : bool :=
  match c with CUpdate _ _ _ _ _ _ _ => true | _ => false end.

Definition is_delete (c : Call) : bool :=
  match c with CDelete _ _ _ _ _ => true | _ => false end.

(** The create, update and delete calls of a run, in order. *)
Definition creates (t : list Call) : list Call := List.filter is_create t.
Definition updates (t : list Call) : list Call := List.filter is_update t.
Definition deletes (t : list Call) : list Call := List.filter is_delete t.

(** The call fetched no usable credential: the secret could not be fetched,
    or its data has no entry under the configured key. *)
Definition credential_failed (cfg : gandiDNSProviderConfig) (c : Call) : bool :=
  match c with
  | CSecretsGet _ _ (sec, err) =>
      match err with
      | Some _ => true
      | None =>
          match corev1.Data sec !! cmmeta.Key (APIKeySecretRef cfg) with
          | None => true
          | Some _ => false
          end
      end
  | _ => false
  end.

(** The call is a create or an update that the provider refused. *)
Definition write_failed (c : Call) : bool :=
  match c with
  | CCreate _ _ _ _ _ _ (_, Some _) => true
  | CUpdate _ _ _ _ _ _ (_, Some _) => true
  | _ => false
  end.

(** The provider client a call went through, if it is a provider call. *)
Definition client_of (c : Call) : option livedns.LiveDNS :=
  match c with
  | CSecretsGet _ _ _ => None
  | CGet cl _ _ _ _ => Some cl
  | CCreate cl _ _ _ _ _ _ => Some cl
  | CUpdate cl _ _ _ _ _ _ => Some cl
  | CDelete cl _ _ _ _ => Some cl
  end.

Definition clients (t : list Call) : list livedns.LiveDNS := omap client_of t.

Definition is_secrets_get (c : Call) : bool :=
  match c with CSecretsGet _ _ _ => true | _ => false end.

Definition is_lookup (c : Call) : bool :=
  match c with CGet _ _ _ _ _ => true | _ => false end.

(** The zone, record name and record type a provider call is about. *)
Definition target_of (c : Call) : option (string * string * string) :=
  match c with
  | CSecretsGet _ _ _ => None
  | CGet _ f n ty _ => Some (f, n, ty)
  | CCreate _ f n ty _ _ _ => Some (f, n, ty)
  | CUpdate _ f n ty _ _ _ => Some (f, n, ty)
  | CDelete _ f n ty _ => Some (f, n, ty)
  end.

Definition targets (t : list Call) : list (string * string * string) :=
  omap target_of t.

(** The call is a write that the provider accepted. *)
Definition write_succeeded (c : Call) : bool :=
  match c with
  | CCreate _ _ _ _ _ _ (_, None) => true
  | CUpdate _ _ _ _ _ _ (_, None) => true
  | CDelete _ _ _ _ None => true
  | _ => false
  end.

(** ** The words of the specification *)

(** The message [msg] has [part] somewhere in it. *)
Definition references (msg part : string) : Prop :=
  exists pre post : string, msg = pre +:+ part +:+ post.

(** The dot-separated labels of the dot-trimmed form of a domain. *)
Definition labels (s : string) : list string := Split (Trim s dot) dot.

(** [s] without one trailing dot, if it has one. *)
Fixpoint strip_trailing_dot (s : string) : string :=
  match s with
  | EmptyString => EmptyString
  | String a s' =>
      match s' with
      | EmptyString => if Ascii.eqb a dot then EmptyString else s
      | String _ _ => String a (strip_trailing_dot s')
      end
  end.

(** The error a function returns wraps [e] under the context [ctx]; nil
    stays nil. *)
Definition wrap (ctx : string) (e : error) : error :=
  match e with
  | Some m => Some (ctx +:+ m)
  | None => nil
  end.

(** ** Test doubles, for running the solver on examples

    A provider and a secret store held in memory. The provider hands TXT
    values back wrapped in double quotes, and refuses every write when
    [writable] is off. *)

Record World : Type := {
  secrets : gmap (string * string) corev1.Secret;
  records : gmap (string * string * string) livedns.DomainRecord;
  writable : bool
}.

Definition no_record : livedns.DomainRecord :=
  {| livedns.RrsetType := ""; livedns.RrsetTTL := 0; livedns.RrsetName := "";
     livedns.RrsetValues := [] |}.

Definition quoted (s : string) : string := dquote +:+ s +:+ dquote.

Definition put_record (w : World) (fqdn name ty : string) (ttl : Z)
    (values : list string) : livedns.StandardResponse * error * World :=
  if writable w
  then ({| livedns.Code := 201; livedns.Message := "ok" |}, nil,
        {| secrets := secrets w;
           records :=
             <[(fqdn, name, ty) :=
                 {| livedns.RrsetType := ty; livedns.RrsetTTL := ttl;
                    livedns.RrsetName := name;
                    livedns.RrsetValues := quoted <$> values |}]> (records w);
           writable := true |})
  else ({| livedns.Code := 403; livedns.Message := "" |}, Some "403 Forbidden", w).

Definition in_memory : env World :=
  fun X c =>
    match c in call X return World -> X * World with
    | SecretsGet ns n => fun w =>
        match secrets w !! (ns, n) with
        | Some s => ((s, nil), w)
        | None => (({| corev1.Data := ∅ |}, Some "secret not found"), w)
        end
    | GetDomainRecordByNameAndType _ f n t => fun w =>
        match records w !! (f, n, t) with
        | Some r => ((r, nil), w)
        | None => ((no_record, Some "404 Not Found"), w)
        end
    | CreateDomainRecord _ f n t ttl vs => fun w => put_record w f n t ttl vs
    | UpdateDomainRecordByNameAndType _ f n t ttl vs => fun w =>
        put_record w f n t ttl vs
    | DeleteDomainRecord _ f n t => fun w =>
        if writable w
        then (nil, {| secrets := secrets w;
                      records := delete (f, n, t) (records w);
                      writable := true |})
        else (Some "403 Forbidden", w)
    end.

(** A configuration document, and the value it decodes to. *)
Definition sample_document : string :=
  "{" +:+ quoted "apiKeySecretRef" +:+ ":{" +:+ quoted "name" +:+ ":"
  +:+ quoted "gandi-credentials" +:+ "," +:+ quoted "key" +:+ ":"
  +:+ quoted "api-token" +:+ "}}".

Definition sample_config : gandiDNSProviderConfig :=
  {| APIKeySecretRef :=
       {| cmmeta.LocalObjectReference := {| cmmeta.Name := "gandi-credentials" |};
          cmmeta.Key := "api-token" |} |}.

(** A decoder that knows two documents: the empty object, which leaves the
    value as it is, and [sample_document]; it rejects everything else. *)
Definition sample_Unmarshal (raw : list byte) (cfg : gandiDNSProviderConfig)
  : gandiDNSProviderConfig * error :=
  let s := String.string_of_list_byte raw in
  if String.eqb s sample_document then (sample_config, nil)
  else if String.eqb s "{}" then (cfg, nil)
  else (cfg, Some "invalid character").

(** [%q] on a string of printable ASCII without quotes or backslashes. *)
Definition sample_Quote (s : string) : string := quoted s.

Definition sample_secret : corev1.Secret :=
  {| corev1.Data :=
       {[ "api-token" := String.list_byte_of_string "s3cr3t" ]} |}.

Definition sample_challenge : v1alpha1.ChallengeRequest :=
  {| v1alpha1.ResourceNamespace := "cert-manager";
     v1alpha1.ResolvedZone := "example.com.";
     v1alpha1.ResolvedFQDN := "_acme-challenge.foo.example.com.";
     v1alpha1.Key := "abc123";
     v1alpha1.Config :=
       Some {| extapi.Raw := String.list_byte_of_string sample_document |} |}.

Definition sample_world : World :=
  {| secrets := {[ ("cert-manager", "gandi-credentials") := sample_secret ]};
     records := ∅;
     writable := true |}.

Definition sample_client (debug : bool) : livedns.LiveDNS :=
  gandi.NewLiveDNSClient
    {| config.APIKey := "s3cr3t"; config.Debug := debug; config.DryRun := false |}.

(** The same services, refusing every write. *)
Definition sample_world_readonly : World :=
  {| secrets := secrets sample_world; records := ∅; writable := false |}.

(** A challenge whose zone has one label. *)
Definition tld_challenge : v1alpha1.ChallengeRequest :=
  {| v1alpha1.ResourceNamespace := "cert-manager";
     v1alpha1.ResolvedZone := "com.";
     v1alpha1.ResolvedFQDN := "_acme-challenge.com.";
     v1alpha1.Key := "abc123";
     v1alpha1.Config := v1alpha1.Config sample_challenge |}.

(** The sample challenge with a configuration that is not a document. *)
Definition bad_config_challenge : v1alpha1.ChallengeRequest :=
  {| v1alpha1.ResourceNamespace := "cert-manager";
     v1alpha1.ResolvedZone := "example.com.";
     v1alpha1.ResolvedFQDN := "_acme-challenge.foo.example.com.";
     v1alpha1.Key := "abc123";
     v1alpha1.Config := Some {| extapi.Raw := String.list_byte_of_string "{" |} |}.


(** Services that hold no secret, and services whose only secret has the
    empty name. *)
Definition sample_world_no_secret : World :=
  {| secrets := ∅; records := ∅; writable := true |}.


Definition sample_Present : Prog error :=
  Present sample_Unmarshal sample_Quote sample_challenge.

Definition sample_CleanUp : Prog error :=
  CleanUp sample_Unmarshal sample_Quote sample_challenge.

(** The services once [Present] has run on the sample challenge, and the
    record they then hold. *)
Definition sample_world_presented : World :=
  (run in_memory sample_Present sample_world).2.

Definition sample_record : livedns.DomainRecord :=
  {| livedns.RrsetType := "TXT"; livedns.RrsetTTL := 300;
     livedns.RrsetName := "_acme-challenge.foo";
     livedns.RrsetValues := [quoted "abc123"] |}.

(** * Properties *)

#[local] Arguments String.append !_ _ / : simpl nomatch.

(** ** Strings *)

Section StringFacts.

Lemma length_app_string (s t : string) :
  String.length (s +:+ t) = (String.length s + String.length t)%nat.
Proof. induction s as [|a s IH]; simpl; [reflexivity | now rewrite IH]. Qed.

Lemma app_empty_r (s : string) : s +:+ "" = s.
Proof. induction s as [|a s IH]; cbn; [reflexivity | now f_equal]. Qed.

Lemma app_assoc_string (s t u : string) : (s +:+ t) +:+ u = s +:+ t +:+ u.
Proof. induction s as [|a s IH]; simpl; [reflexivity | now rewrite IH]. Qed.

Lemma substring_all (s : string) : String.substring 0 (String.length s) s = s.
Proof. induction s as [|a s IH]; simpl; [reflexivity | now rewrite IH]. Qed.

Lemma substring_prefix (p z : string) :
  String.substring 0 (String.length p) (p +:+ z) = p.
Proof.
  induction p as [|a p IH]; simpl.
  - now destruct z.
  - now rewrite IH.
Qed.

Lemma substring_suffix (p z : string) :
  String.substring (String.length p) (String.length z) (p +:+ z) = z.
Proof.
  induction p as [|a p IH]; simpl; [apply substring_all | exact IH].
Qed.

Lemma substring_cut (s : string) (n : nat) :
  (n <= String.length s)%nat ->
  s = String.substring 0 n s +:+ String.substring n (String.length s - n) s.
Proof.
  revert n. induction s as [|a s IH]; intros [|n] Hn; simpl in *;
    try reflexivity; try lia.
  - now rewrite substring_all.
  - f_equal. apply IH. lia.
Qed.

Lemma HasSuffix_app (p z : string) : HasSuffix (p +:+ z) z = true.
Proof.
  unfold HasSuffix, substr. rewrite length_app_string.
  apply andb_true_intro. split.
  - apply Nat.leb_le. lia.
  - replace (String.length p + String.length z - String.length z)%nat
      with (String.length p) by lia.
    replace (String.length p + String.length z - String.length p)%nat
      with (String.length z) by lia.
    rewrite substring_suffix. apply String.eqb_refl.
Qed.

Lemma HasSuffix_inv (s z : string) :
  HasSuffix s z = true -> exists p, s = p +:+ z.
Proof.
  unfold HasSuffix, substr. intros H.
  apply andb_prop in H as [Hlen Heq].
  apply Nat.leb_le in Hlen. apply String.eqb_eq in Heq.
  exists (String.substring 0 (String.length s - String.length z) s).
  etransitivity;
    [apply (substring_cut s (String.length s - String.length z)); lia|].
  f_equal. exact Heq.
Qed.

Lemma TrimSuffix_app (p z : string) : TrimSuffix (p +:+ z) z = p.
Proof.
  unfold TrimSuffix. rewrite HasSuffix_app. unfold substr.
  rewrite length_app_string.
  replace (String.length p + String.length z - String.length z - 0)%nat
    with (String.length p) by lia.
  apply substring_prefix.
Qed.

Lemma TrimSuffix_no_suffix (s z : string) :
  HasSuffix s z = false -> TrimSuffix s z = s.
Proof. unfold TrimSuffix. now intros ->. Qed.

Lemma strip_trailing_dot_app (p : string) : strip_trailing_dot (p +:+ ".") = p.
Proof.
  induction p as [|a p IH]; [reflexivity|].
  simpl. rewrite IH. destruct p; reflexivity.
Qed.

Lemma strip_trailing_dot_changed (s : string) :
  strip_trailing_dot s <> s -> exists p, s = p +:+ ".".
Proof.
  induction s as [|a s IH]; simpl; [congruence|].
  destruct s as [|b s].
  - destruct (Ascii.eqb_spec a dot) as [->|]; [|congruence].
    intros _. now exists "".
  - intros H. destruct IH as [p Hp]; [congruence|].
    exists (String a p). simpl. now rewrite <- Hp.
Qed.

Lemma TrimSuffix_dot (s : string) : TrimSuffix s "." = strip_trailing_dot s.
Proof.
  destruct (HasSuffix s ".") eqn:E.
  - apply HasSuffix_inv in E as [p ->].
    now rewrite TrimSuffix_app, strip_trailing_dot_app.
  - rewrite TrimSuffix_no_suffix by assumption.
    destruct (String.string_dec (strip_trailing_dot s) s) as [->|Hne]; [reflexivity|].
    apply strip_trailing_dot_changed in Hne as [p ->].
    rewrite HasSuffix_app in E. discriminate.
Qed.

Lemma trimRightByte_snoc (p : string) (c : ascii) :
  trimRightByte (p +:+ String c "") c = trimRightByte p c.
Proof.
  induction p as [|a p IH]; simpl.
  - now rewrite Ascii.eqb_refl.
  - now rewrite IH.
Qed.

Lemma Trim_TrimSuffix_dot (s : string) : Trim (TrimSuffix s ".") dot = Trim s dot.
Proof.
  destruct (HasSuffix s ".") eqn:E.
  - apply HasSuffix_inv in E as [p ->]. rewrite TrimSuffix_app.
    unfold Trim. f_equal. symmetry. exact (trimRightByte_snoc p dot).
  - now rewrite TrimSuffix_no_suffix.
Qed.

Lemma Split_length (s : string) (c : ascii) : (1 <= length (Split s c))%nat.
Proof.
  induction s as [|a s IH]; simpl; [lia|].
  destruct (Ascii.eqb a c); simpl; [lia|].
  destruct (Split s c); simpl in *; lia.
Qed.

Lemma Join_cons (e : string) (rest : list string) (sep : string) :
  rest <> [] -> Join (e :: rest) sep = e +:+ sep +:+ Join rest sep.
Proof. destruct rest; [congruence | reflexivity]. Qed.

(** Joining the pieces of a split with the separator gives the string back. *)
Lemma Join_Split (s : string) (c : ascii) :
  Join (Split s c) (String c "") = s.
Proof.
  induction s as [|a s IH]; [reflexivity|].
  pose proof (Split_length s c) as Hlen.
  cbn [Split]. destruct (Ascii.eqb_spec a c) as [->|Hne].
  - rewrite Join_cons by (destruct (Split s c); simpl in *; [lia | congruence]).
    now rewrite IH.
  - destruct (Split s c) as [|p ps]; [simpl in Hlen; lia|].
    destruct ps as [|q ps].
    + simpl in *. now rewrite IH.
    + rewrite Join_cons by congruence. rewrite Join_cons in IH by congruence.
      transitivity (String a (p +:+ String c "" +:+ Join (q :: ps) (String c "")));
        [reflexivity | now f_equal].
Qed.

End StringFacts.

(** ** Slices *)

Section SliceFacts.

Context {A : Type}.

Lemma len_app (l k : list A) : len (l ++ k) = len l + len k.
Proof. unfold len. rewrite length_app. lia. Qed.

Lemma last_two_inv (l : list A) :
  (2 <= length l)%nat -> exists pre a b, l = pre ++ [a; b].
Proof.
  intros H.
  destruct (rev l) as [|b [|a r]] eqn:E;
    apply (f_equal (@rev A)) in E; rewrite rev_involutive in E; subst l;
    simpl in H; try lia.
  exists (rev r), a, b. simpl. now rewrite <- app_assoc.
Qed.

Lemma len_last_two (pre : list A) (a b : A) :
  len (pre ++ [a; b]) = len pre + 2.
Proof. rewrite len_app. reflexivity. Qed.

Lemma index_nat (l : list A) (i : nat) :
  (i < length l)%nat -> index l (Z.of_nat i) = l !! i.
Proof.
  intros H. unfold index, len.
  rewrite (proj2 (Z.leb_le _ _)), (proj2 (Z.ltb_lt _ _)) by lia.
  now rewrite Nat2Z.id.
Qed.

Lemma index_penultimate (pre : list A) (a b : A) :
  index (pre ++ [a; b]) (len (pre ++ [a; b]) - 2) = Some a.
Proof.
  rewrite len_last_two.
  replace (len pre + 2 - 2) with (Z.of_nat (length pre)) by (unfold len; lia).
  rewrite index_nat by (rewrite length_app; simpl; lia).
  rewrite lookup_app_r by lia. now rewrite Nat.sub_diag.
Qed.

Lemma index_last (pre : list A) (a b : A) :
  index (pre ++ [a; b]) (len (pre ++ [a; b]) - 1) = Some b.
Proof.
  rewrite len_last_two.
  replace (len pre + 2 - 1) with (Z.of_nat (S (length pre))) by (unfold len; lia).
  rewrite index_nat by (rewrite length_app; simpl; lia).
  rewrite lookup_app_r by lia.
  now replace (S (length pre) - length pre)%nat with 1%nat by lia.
Qed.

Lemma slice_but_last_two (pre : list A) (a b : A) :
  slice (pre ++ [a; b]) 0 (len (pre ++ [a; b]) - 2) = Some pre.
Proof.
  unfold slice. rewrite len_last_two.
  replace (len pre + 2 - 2) with (len pre) by lia.
  rewrite !(proj2 (Z.leb_le _ _)) by (unfold len; lia).
  simpl. f_equal. unfold len. rewrite Z.sub_0_r, Nat2Z.id.
  apply take_app_length.
Qed.

Lemma index_short (l : list A) : (length l < 2)%nat -> index l (len l - 2) = None.
Proof.
  intros H. unfold index, len.
  now rewrite (proj2 (Z.leb_gt 0 (Z.of_nat (length l) - 2))) by lia.
Qed.

End SliceFacts.

(** ** The domain split *)

Lemma extract_of_labels (fqdn entry : string) (pre : list string) (a b : string) :
  labels fqdn = pre ++ [a; b] ->
  extractRootAndSubDomain fqdn entry
  = Some (a +:+ "." +:+ b, Join (Trim entry dot :: pre) ".", nil).
Proof.
  unfold extractRootAndSubDomain, labels. intros ->.
  rewrite index_penultimate, index_last, slice_but_last_two. reflexivity.
Qed.

Lemma extract_defined_iff (fqdn entry : string) :
  is_Some (extractRootAndSubDomain fqdn entry) <-> (2 <= length (labels fqdn))%nat.
Proof.
  split.
  - intros [r Hr].
    destruct (Nat.le_gt_cases 2 (length (labels fqdn))) as [|Hlt]; [assumption|].
    unfold extractRootAndSubDomain in Hr. fold (labels fqdn) in Hr.
    rewrite (index_short _ Hlt) in Hr. discriminate.
  - intros H. apply last_two_inv in H as (pre & a & b & H).
    rewrite (extract_of_labels fqdn entry pre a b H). eauto.
Qed.

(** C1: a domain whose dot-trimmed form has at least two labels splits into
    the root made of its last two labels joined by a dot, and the subdomain
    made of the dot-trimmed entry followed by the labels before those two,
    in order, joined by dots. *)
Theorem extractRootAndSubDomain_last_two_labels (fqdn entry : string) :
  (2 <= length (labels fqdn))%nat ->
  exists (pre : list string) (a b : string),
    labels fqdn = pre ++ [a; b]
    /\ extractRootAndSubDomain fqdn entry
       = Some (a +:+ "." +:+ b, Join (Trim entry dot :: pre) ".", nil).
Proof.
  intros H. apply last_two_inv in H as (pre & a & b & H).
  exists pre, a, b. split; [exact H | now apply extract_of_labels].
Qed.

Lemma extractRootAndSubDomain_last_two_labels_witness :
  exists (pre : list string) (a b : string),
    labels "a.b.example.com" = pre ++ [a; b]
    /\ extractRootAndSubDomain "a.b.example.com" "_acme-challenge"
       = Some (a +:+ "." +:+ b, Join (Trim "_acme-challenge" dot :: pre) ".", nil).
Proof.
  apply (extractRootAndSubDomain_last_two_labels "a.b.example.com" "_acme-challenge").
  vm_compute. lia.
Defined.

Example extract_a_b_example_com :
  extractRootAndSubDomain "a.b.example.com" "_acme-challenge"
  = Some ("example.com", "_acme-challenge.a.b", nil).
Proof. reflexivity. Qed.

Example extract_scenario :
  getDomainAndEntry sample_challenge = ("_acme-challenge.foo", "example.com")
  /\ extractRootAndSubDomain "example.com" "_acme-challenge.foo"
     = Some ("example.com", "_acme-challenge.foo", nil).
Proof. split; reflexivity. Qed.

(** An empty entry still takes its place in front: the subdomain then
    starts with a dot. *)
Example extract_empty_entry :
  extractRootAndSubDomain "a.example.com" "" = Some ("example.com", ".a", nil).
Proof. reflexivity. Qed.

(** ** Entry and domain *)

(** C2: when the FQDN ends with the zone, the entry is the FQDN without
    that suffix and then without one trailing dot, and the domain is the
    zone without its trailing dot. *)
Theorem getDomainAndEntry_strips (ch : v1alpha1.ChallengeRequest) :
  HasSuffix (v1alpha1.ResolvedFQDN ch) (v1alpha1.ResolvedZone ch) = true ->
  exists p : string,
    v1alpha1.ResolvedFQDN ch = p +:+ v1alpha1.ResolvedZone ch
    /\ getDomainAndEntry ch
       = (strip_trailing_dot p, strip_trailing_dot (v1alpha1.ResolvedZone ch)).
Proof.
  intros H. apply HasSuffix_inv in H as [p Hp]. exists p. split; [exact Hp|].
  unfold getDomainAndEntry. rewrite Hp, TrimSuffix_app.
  now rewrite !TrimSuffix_dot.
Qed.

Lemma getDomainAndEntry_strips_witness :
  exists p : string,
    v1alpha1.ResolvedFQDN sample_challenge
    = p +:+ v1alpha1.ResolvedZone sample_challenge
    /\ getDomainAndEntry sample_challenge
       = (strip_trailing_dot p,
          strip_trailing_dot (v1alpha1.ResolvedZone sample_challenge)).
Proof. apply (getDomainAndEntry_strips sample_challenge). reflexivity. Defined.

(** Only one trailing dot goes. *)
Example getDomainAndEntry_two_dots :
  getDomainAndEntry
    {| v1alpha1.ResourceNamespace := ""; v1alpha1.ResolvedZone := "example.com.";
       v1alpha1.ResolvedFQDN := "foo..example.com."; v1alpha1.Key := "";
       v1alpha1.Config := None |}
  = ("foo.", "example.com").
Proof. reflexivity. Qed.

(** ** Runs of the solver *)

Lemma run_bind {W A B : Type} (h : env W) (p : Prog A) (f : A -> Prog B) (w : W) :
  run h (p ≫= f) w
  = match run h p w with
    | (Returned a, t, w1) =>
        let '(o, t2, w2) := run h (f a) w1 in (o, t ++ t2, w2)
    | (Panicked, t, w1) => (Panicked, t, w1)
    end.
Proof.
  revert w. induction p as [a| |X c k IH]; intros w.
  - simpl. change (Ret a ≫= f) with (f a).
    now destruct (run h (f a) w) as [[o t] w2].
  - reflexivity.
  - change (Do c k ≫= f) with (Do c (fun x => k x ≫= f)).
    simpl. destruct (h X c w) as [x w1]. rewrite IH.
    destruct (run h (k x) w1) as [[[a|] t] w2]; [|reflexivity].
    now destruct (run h (f a) w2) as [[o t2] w3].
Qed.

Lemma run_remote {W X B : Type} (h : env W) (c : call X) (f : X -> Prog B) (w : W) :
  run h (remote c ≫= f) w
  = let '(x, w1) := h X c w in
    let '(o, t, w2) := run h (f x) w1 in (o, logged c x :: t, w2).
Proof. reflexivity. Qed.

Lemma run_lift {W A B : Type} (h : env W) (o : option A) (f : A -> Prog B) (w : W) :
  run h (lift o ≫= f) w
  = match o with
    | Some a => run h (f a) w
    | None => (Panicked, [], w)
    end.
Proof. now destruct o. Qed.

Lemma run_remote_last {W X : Type} (h : env W) (c : call X) (w : W) :
  run h (remote c) w = let '(x, w1) := h X c w in (Returned x, [logged c x], w1).
Proof. unfold remote. simpl. now destruct (h X c w). Qed.

Lemma run_lift_last {W A : Type} (h : env W) (o : option A) (w : W) :
  run h (lift o) w
  = match o with
    | Some a => (Returned a, [], w)
    | None => (Panicked, [], w)
    end.
Proof. now destruct o. Qed.

Lemma run_Ret {W A : Type} (h : env W) (a : A) (w : W) :
  run h (Ret a) w = (Returned a, [], w).
Proof. reflexivity. Qed.

(** Case analysis on a run: split on every answer and every test the
    program looks at, until its result is a value. *)
Ltac run_step H :=
  cbv beta iota zeta in H;
  first
    [ rewrite run_remote in H
    | rewrite run_lift in H
    | rewrite run_remote_last in H
    | rewrite run_lift_last in H
    | rewrite run_Ret in H
    | rewrite run_bind in H
    | match type of H with
      | context [match ?x with _ => _ end] =>
          lazymatch x with
          | context [match _ with _ => _ end] => fail
          | _ => destruct x eqn:?
          end
      end ].

Ltac run_cases H :=
  repeat run_step H;
  try discriminate H;
  try (injection H as <- <- <-);
  simplify_eq.

Lemma extract_nil_error (fqdn entry root sub : string) (err : error) :
  extractRootAndSubDomain fqdn entry = Some (root, sub, err) -> err = nil.
Proof.
  intros H.
  assert (Hlen : (2 <= length (labels fqdn))%nat)
    by (apply (extract_defined_iff fqdn entry); eauto).
  apply last_two_inv in Hlen as (pre & a & b & Hl).
  rewrite (extract_of_labels fqdn entry pre a b Hl) in H. congruence.
Qed.

(** Case analysis on a run of [Present] or [CleanUp]. *)
Ltac solver_cases H :=
  unfold Present, CleanUp, getApiKey in H;
  match type of H with
  | context [loadConfig ?u ?c] =>
      let e := fresh "e" in
      let Ecfg := fresh "Ecfg" in
      destruct (loadConfig u c) as [? [e|]] eqn:Ecfg
  end;
  run_cases H;
  try match goal with
      | Hx : extractRootAndSubDomain _ _ = Some (_, _, Some _) |- _ =>
          apply extract_nil_error in Hx; unfold nil in Hx; discriminate Hx
      end.

(** Membership in the calls of a run that is known call by call. *)
Ltac in_calls H :=
  cbn [In] in H;
  repeat match type of H with
         | _ \/ _ => destruct H as [H|H]
         | False => destruct H
         end;
  simplify_eq.

Ltac unfold_loadConfig := unfold loadConfig.
Ltac unfold_getApiKey H := unfold getApiKey in H.

(** The comparison of the record with the quoted key, as a proposition. *)
Ltac key_test :=
  cbn [fst snd];
  repeat match goal with
         | E : negb _ = true |- _ => apply negb_true_iff, String.eqb_neq in E
         | E : negb _ = false |- _ => apply negb_false_iff, String.eqb_eq in E
         end.

Section SolverFacts.

Variable json_Unmarshal :
  list byte -> gandiDNSProviderConfig -> gandiDNSProviderConfig * error.
Variable strconv_Quote : string -> string.
Variable W : Type.
Variable h : env W.

Abbreviation loadConfig := (loadConfig json_Unmarshal).
Abbreviation getApiKey := (getApiKey strconv_Quote).
Abbreviation Present := (Present json_Unmarshal strconv_Quote).
Abbreviation CleanUp := (CleanUp json_Unmarshal strconv_Quote).

(** C3: when the lookup of [Present] finds a record, it is the lookup of the
    TXT record at the root and subdomain of the split; if the values of the
    record, concatenated, are the challenge key in double quotes, [Present]
    makes no create and no update call and returns nil; otherwise it makes
    no create call and exactly one update call, for that root and subdomain,
    type TXT, TTL 300 and the challenge key as the only value. *)
Theorem Present_record_found (ch : v1alpha1.ChallengeRequest) (w : W)
    (o : outcome error) (t : list Call) (w' : W)
    (cl : livedns.LiveDNS) (fqdn name ty : string) (rec : livedns.DomainRecord) :
  run h (Present ch) w = (o, t, w') ->
  In (CGet cl fqdn name ty (rec, nil)) t ->
  extractRootAndSubDomain (getDomainAndEntry ch).2 (getDomainAndEntry ch).1
  = Some (fqdn, name, nil)
  /\ ty = "TXT"
  /\ (Join (livedns.RrsetValues rec) "" = dquote +:+ v1alpha1.Key ch +:+ dquote ->
      o = Returned nil /\ creates t = [] /\ updates t = [])
  /\ (Join (livedns.RrsetValues rec) "" <> dquote +:+ v1alpha1.Key ch +:+ dquote ->
      creates t = []
      /\ exists r,
           updates t = [CUpdate cl fqdn name "TXT" 300 [v1alpha1.Key ch] r]
           /\ o = Returned (wrap "unable to update TXT record: " r.2)).
Proof.
  intros H Hin. solver_cases H; in_calls Hin.
  all: key_test.
  all: repeat split; try assumption; try reflexivity; try (intros; congruence).
  all: eexists; split; reflexivity.
Qed.

Lemma Present_lookup_failed (ch : v1alpha1.ChallengeRequest) (w : W)
    (o : outcome error) (t : list Call) (w' : W)
    (cl : livedns.LiveDNS) (fqdn name ty : string) (rec : livedns.DomainRecord)
    (e : string) :
  run h (Present ch) w = (o, t, w') ->
  In (CGet cl fqdn name ty (rec, Some e)) t ->
  extractRootAndSubDomain (getDomainAndEntry ch).2 (getDomainAndEntry ch).1
  = Some (fqdn, name, nil)
  /\ ty = "TXT"
  /\ updates t = []
  /\ exists r,
       creates t = [CCreate cl fqdn name "TXT" 300 [v1alpha1.Key ch] r]
       /\ o = Returned (wrap "unable to create TXT record: " r.2).
Proof.
  intros H Hin. solver_cases H; in_calls Hin.
  all: key_test.
  all: repeat split; try assumption; try reflexivity.
  all: eexists; split; reflexivity.
Qed.

Lemma Present_error_iff (ch : v1alpha1.ChallengeRequest) (w : W)
    (o : outcome error) (t : list Call) (w' : W) :
  run h (Present ch) w = (o, t, w') ->
  (exists e, o = Returned (Some e))
  <-> (is_Some (loadConfig (v1alpha1.Config ch)).2
       \/ existsb (credential_failed (loadConfig (v1alpha1.Config ch)).1) t = true
       \/ existsb write_failed t = true).
Proof.
  intros H. solver_cases H.
  all: cbn [fst snd existsb credential_failed write_failed orb].
  all: repeat match goal with
              | E : corev1.Data _ !! _ = _ |- _ => rewrite E
              end.
  all: split;
    [ intros [m Hm]; first [discriminate Hm | eauto 6]
    | intros [Hc|[Hc|Hc]];
      first [ discriminate Hc
            | match type of Hc with
              | is_Some _ => destruct Hc as [? Hc]; discriminate Hc
              end
            | solve [eauto] ] ].
Qed.

(** C4: when the lookup of [Present] fails, [Present] makes exactly one
    create call, for the root and subdomain of the split, type TXT, TTL 300
    and the challenge key as the only value, and no update call, and what it
    returns is the error of that create call, wrapped, or nil: the failure
    of the lookup is not returned. [Present] returns an error exactly when
    the configuration does not decode, no credential is obtained, or a
    create or update call fails. *)
Theorem Present_record_absent (ch : v1alpha1.ChallengeRequest) (w : W)
    (o : outcome error) (t : list Call) (w' : W) :
  run h (Present ch) w = (o, t, w') ->
  (forall (cl : livedns.LiveDNS) (fqdn name ty : string)
          (rec : livedns.DomainRecord) (e : string),
      In (CGet cl fqdn name ty (rec, Some e)) t ->
      extractRootAndSubDomain (getDomainAndEntry ch).2 (getDomainAndEntry ch).1
      = Some (fqdn, name, nil)
      /\ ty = "TXT"
      /\ updates t = []
      /\ exists r,
           creates t = [CCreate cl fqdn name "TXT" 300 [v1alpha1.Key ch] r]
           /\ o = Returned (wrap "unable to create TXT record: " r.2))
  /\ ((exists e, o = Returned (Some e))
      <-> (is_Some (loadConfig (v1alpha1.Config ch)).2
           \/ existsb (credential_failed (loadConfig (v1alpha1.Config ch)).1) t
              = true
           \/ existsb write_failed t = true)).
Proof.
  intros H. split.
  - intros cl fqdn name ty rec e. now apply (Present_lookup_failed ch w o t w').
  - now apply (Present_error_iff ch w o t w').
Qed.


(** ** Configuration and credentials *)

(** C7: without a configuration [loadConfig] returns the zero value and no
    error; with one, it returns what the decoder left in the value: with a
    decoding error, wrapped, when the decoder reports one, and with no error
    otherwise. *)
Theorem loadConfig_decodes :
  loadConfig None = (zero_config, nil)
  /\ (forall (j : extapi.JSON) (cfg : gandiDNSProviderConfig) (e : string),
         json_Unmarshal (extapi.Raw j) zero_config = (cfg, Some e) ->
         loadConfig (Some j) = (cfg, Some ("error decoding solver config: " +:+ e)))
  /\ (forall (j : extapi.JSON) (cfg : gandiDNSProviderConfig),
         json_Unmarshal (extapi.Raw j) zero_config = (cfg, nil) ->
         loadConfig (Some j) = (cfg, nil)).
Proof.
  split; [reflexivity|].
  split; intros; unfold_loadConfig; now rewrite H.
Qed.

(** C8: [getApiKey] asks once for the secret named in the configuration, in
    the given namespace. If the secret cannot be fetched it returns an error
    that wraps the one of the fetch; if the data of the secret has nothing
    under the configured key, an error that names the key, the secret and
    the namespace; otherwise the bytes stored under the key, as a string,
    and no error. *)
Theorem getApiKey_resolves (cfg : gandiDNSProviderConfig) (namespace : string)
    (w : W) (o : outcome (option string * error)) (t : list Call) (w' : W) :
  let secretName :=
    cmmeta.Name (cmmeta.LocalObjectReference (APIKeySecretRef cfg)) in
  let key := cmmeta.Key (APIKeySecretRef cfg) in
  run h (getApiKey cfg namespace) w = (o, t, w') ->
  exists (sec : corev1.Secret) (err : error),
    h _ (SecretsGet namespace secretName) w = ((sec, err), w')
    /\ t = [CSecretsGet namespace secretName (sec, err)]
    /\ (forall e : string,
           err = Some e ->
           o = Returned
                 (None, Some ("unable to get secret `" +:+ secretName +:+ "`; " +:+ e)))
    /\ (err = nil ->
        corev1.Data sec !! key = None ->
        exists msg : string,
          o = Returned (None, Some msg)
          /\ msg = "key " +:+ strconv_Quote key +:+ " not found in secret "
                   +:+ dquote +:+ secretName +:+ "/" +:+ namespace +:+ dquote
          /\ references msg secretName
          /\ references msg namespace)
    /\ (forall secBytes : list byte,
           err = nil ->
           corev1.Data sec !! key = Some secBytes ->
           exists apiKey : string,
             o = Returned (Some apiKey, nil)
             /\ apiKey = String.string_of_list_byte secBytes
             /\ String.list_byte_of_string apiKey = secBytes).
Proof.
  intros secretName key H. unfold_getApiKey H.
  fold secretName key in H. run_cases H.
  all: do 2 eexists; split; [eassumption|]; split; [reflexivity|].
  - split; [|split]; intros; simplify_eq. reflexivity.
  - split; [|split]; intros; simplify_eq.
    eexists. split; [reflexivity|]. split; [reflexivity|].
    apply String.list_byte_of_string_of_list_byte.
  - split; [|split]; intros; simplify_eq.
    eexists. split; [reflexivity|]. split; [reflexivity|]. split.
    + exists ("key " +:+ strconv_Quote key +:+ " not found in secret " +:+ dquote),
        ("/" +:+ namespace +:+ dquote).
      now rewrite !app_assoc_string.
    + exists ("key " +:+ strconv_Quote key +:+ " not found in secret " +:+ dquote
              +:+ secretName +:+ "/"), dquote.
      now rewrite !app_assoc_string.
Qed.

(** ** Where the split is undefined *)

Lemma labels_domain (ch : v1alpha1.ChallengeRequest) :
  labels (getDomainAndEntry ch).2 = labels (v1alpha1.ResolvedZone ch).
Proof. unfold labels, getDomainAndEntry. cbn [snd]. now rewrite Trim_TrimSuffix_dot. Qed.

Lemma extract_None_iff (fqdn entry : string) :
  extractRootAndSubDomain fqdn entry = None <-> (length (labels fqdn) < 2)%nat.
Proof.
  pose proof (extract_defined_iff fqdn entry) as H.
  destruct (extractRootAndSubDomain fqdn entry) as [r|].
  - split; [discriminate|]. intros Hlt.
    assert (2 <= length (labels fqdn))%nat by (apply H; eauto). lia.
  - split; [|reflexivity]. intros _.
    destruct (Nat.le_gt_cases 2 (length (labels fqdn))) as [Hle|]; [|assumption].
    apply H in Hle as [? Hx]. discriminate Hx.
Qed.

(** Turn what a run learnt about the split into a fact on the labels of the
    zone. *)
Ltac zone_labels Hd :=
  cbn [fst snd] in Hd;
  repeat match goal with
         | E : extractRootAndSubDomain _ _ = None |- _ =>
             apply extract_None_iff in E; rewrite Hd in E
         | E : extractRootAndSubDomain ?d ?e = Some ?r |- _ =>
             assert (2 <= length (labels d))%nat
               by (apply (extract_defined_iff d e); eauto);
             clear E
         end;
  try rewrite Hd in *.

Lemma Present_panics_iff (ch : v1alpha1.ChallengeRequest) (w : W)
    (o : outcome error) (t : list Call) (w' : W) :
  run h (Present ch) w = (o, t, w') ->
  o = Panicked
  <-> ((loadConfig (v1alpha1.Config ch)).2 = nil
       /\ existsb (credential_failed (loadConfig (v1alpha1.Config ch)).1) t = false
       /\ (length (labels (v1alpha1.ResolvedZone ch)) < 2)%nat).
Proof.
  intros H. pose proof (labels_domain ch) as Hd. solver_cases H.
  all: zone_labels Hd.
  all: cbn [fst snd existsb credential_failed orb].
  all: repeat match goal with
              | E : corev1.Data _ !! _ = _ |- _ => rewrite E
              end.
  all: split; [intros Hp | intros (Hc & Hk & Hl)];
    first [ discriminate | lia | (repeat split; solve [auto]) ].
Qed.

Lemma CleanUp_panics_iff (ch : v1alpha1.ChallengeRequest) (w : W)
    (o : outcome error) (t : list Call) (w' : W) :
  run h (CleanUp ch) w = (o, t, w') ->
  o = Panicked
  <-> ((loadConfig (v1alpha1.Config ch)).2 = nil
       /\ existsb (credential_failed (loadConfig (v1alpha1.Config ch)).1) t = false
       /\ (length (labels (v1alpha1.ResolvedZone ch)) < 2)%nat).
Proof.
  intros H. pose proof (labels_domain ch) as Hd. solver_cases H.
  all: zone_labels Hd.
  all: cbn [fst snd existsb credential_failed orb].
  all: repeat match goal with
              | E : corev1.Data _ !! _ = _ |- _ => rewrite E
              end.
  all: split; [intros Hp | intros (Hc & Hk & Hl)];
    first [ discriminate | lia | (repeat split; solve [auto]) ].
Qed.

(** C9: the split is undefined (the index [len(parts)-2] is out of range)
    exactly on the domains whose dot-trimmed form has fewer than two labels;
    [Present] and [CleanUp] panic exactly when the configuration decodes, a
    credential is obtained, and the trimmed zone has fewer than two
    labels. *)
Theorem extractRootAndSubDomain_partial :
  (forall fqdn entry : string,
      (length (labels fqdn) < 2)%nat -> extractRootAndSubDomain fqdn entry = None)
  /\ (forall fqdn entry : string,
         extractRootAndSubDomain fqdn entry = None ->
         (length (labels fqdn) < 2)%nat)
  /\ (forall (ch : v1alpha1.ChallengeRequest) (w : W)
             (o : outcome error) (t : list Call) (w' : W),
         run h (Present ch) w = (o, t, w') \/ run h (CleanUp ch) w = (o, t, w') ->
         o = Panicked
         <-> ((loadConfig (v1alpha1.Config ch)).2 = nil
              /\ existsb (credential_failed (loadConfig (v1alpha1.Config ch)).1) t
                 = false
              /\ (length (labels (v1alpha1.ResolvedZone ch)) < 2)%nat)).
Proof.
  split; [|split].
  - intros fqdn entry. apply extract_None_iff.
  - intros fqdn entry. apply extract_None_iff.
  - intros ch w o t w' [H|H].
    + exact (Present_panics_iff ch w o t w' H).
    + exact (CleanUp_panics_iff ch w o t w' H).
Qed.

(** ** The error of the split *)

Lemma Present_no_split_error (ch : v1alpha1.ChallengeRequest) (w : W)
    (o : outcome error) (t : list Call) (w' : W) (msg : string) :
  run h (Present ch) w = (o, t, w') ->
  o = Returned (Some msg) ->
  String.prefix "unable to mange provided domain" msg = false.
Proof. intros H Ho. solver_cases H; simplify_eq; reflexivity. Qed.

Lemma CleanUp_no_split_error (ch : v1alpha1.ChallengeRequest) (w : W)
    (o : outcome error) (t : list Call) (w' : W) (msg : string) :
  run h (CleanUp ch) w = (o, t, w') ->
  o = Returned (Some msg) ->
  String.prefix "unable to mange provided domain" msg = false.
Proof. intros H Ho. solver_cases H; simplify_eq; reflexivity. Qed.

(** C10: whenever the split is defined its error is nil; so no run of
    [Present] or [CleanUp] returns the error of the branch that wraps it,
    the one whose message starts with [unable to mange provided domain]. *)
Theorem extractRootAndSubDomain_error_nil :
  (forall (fqdn entry root sub : string) (err : error),
      extractRootAndSubDomain fqdn entry = Some (root, sub, err) -> err = nil)
  /\ (forall (ch : v1alpha1.ChallengeRequest) (w : W)
             (o : outcome error) (t : list Call) (w' : W) (msg : string),
         run h (Present ch) w = (o, t, w') \/ run h (CleanUp ch) w = (o, t, w') ->
         o = Returned (Some msg) ->
         String.prefix "unable to mange provided domain" msg = false).
Proof.
  split.
  - exact extract_nil_error.
  - intros ch w o t w' msg [H|H] Ho.
    + exact (Present_no_split_error ch w o t w' msg H Ho).
    + exact (CleanUp_no_split_error ch w o t w' msg H Ho).
Qed.

(** ** The provider client *)

Lemma Present_clients (ch : v1alpha1.ChallengeRequest) (w : W)
    (o : outcome error) (t : list Call) (w' : W) :
  run h (Present ch) w = (o, t, w') ->
  Forall (fun cl => config.Debug (livedns.client_config cl) = false
                    /\ config.DryRun (livedns.client_config cl) = false)
         (clients t).
Proof. intros H. solver_cases H; repeat constructor. Qed.

Lemma CleanUp_clients (ch : v1alpha1.ChallengeRequest) (w : W)
    (o : outcome error) (t : list Call) (w' : W) :
  run h (CleanUp ch) w = (o, t, w') ->
  Forall (fun cl => config.Debug (livedns.client_config cl) = true
                    /\ config.DryRun (livedns.client_config cl) = false)
         (clients t).
Proof. intros H. solver_cases H; repeat constructor. Qed.

End SolverFacts.

(** ** The solver on the sample challenge *)

Lemma Present_record_found_witness :
  (run in_memory sample_Present sample_world_presented).1.1 = Returned nil
  /\ creates (run in_memory sample_Present sample_world_presented).1.2 = []
  /\ updates (run in_memory sample_Present sample_world_presented).1.2 = [].
Proof.
  destruct (run in_memory sample_Present sample_world_presented)
    as [[o t] w'] eqn:E.
  refine (proj1 (proj2 (proj2
            (Present_record_found sample_Unmarshal sample_Quote World in_memory
               sample_challenge sample_world_presented o t w'
               (sample_client false) "example.com" "_acme-challenge.foo" "TXT"
               sample_record E _))) _).
  - vm_compute in E. injection E as <- <- <-. right. left. reflexivity.
  - reflexivity.
Defined.

Lemma Present_record_absent_witness :
  (exists r,
      creates (run in_memory sample_Present sample_world).1.2
      = [CCreate (sample_client false) "example.com" "_acme-challenge.foo" "TXT"
           300 ["abc123"] r]
      /\ (run in_memory sample_Present sample_world).1.1
         = Returned (wrap "unable to create TXT record: " r.2))
  /\ (exists e,
         (run in_memory sample_Present sample_world_readonly).1.1
         = Returned (Some e)).
Proof.
  split.
  - destruct (run in_memory sample_Present sample_world) as [[o t] w'] eqn:E.
    refine (proj2 (proj2 (proj2
              (proj1 (Present_record_absent sample_Unmarshal sample_Quote World
                        in_memory sample_challenge sample_world o t w' E)
                 (sample_client false) "example.com" "_acme-challenge.foo" "TXT"
                 no_record "404 Not Found" _)))).
    vm_compute in E. injection E as <- <- <-. right. left. reflexivity.
  - destruct (run in_memory sample_Present sample_world_readonly)
      as [[o t] w'] eqn:E.
    apply (proj2 (proj2 (Present_record_absent sample_Unmarshal sample_Quote
                           World in_memory sample_challenge
                           sample_world_readonly o t w' E))).
    right. right. vm_compute in E. injection E as <- <- <-. reflexivity.
Defined.


Lemma loadConfig_decodes_witness :
  loadConfig sample_Unmarshal (v1alpha1.Config sample_challenge)
  = (sample_config, nil).
Proof.
  apply (proj2 (proj2 (loadConfig_decodes sample_Unmarshal))). reflexivity.
Defined.

Lemma getApiKey_resolves_witness :
  exists apiKey : string,
    (run in_memory (getApiKey sample_Quote sample_config "cert-manager")
       sample_world).1.1
    = Returned (Some apiKey, nil)
    /\ apiKey = "s3cr3t".
Proof.
  destruct (run in_memory (getApiKey sample_Quote sample_config "cert-manager")
              sample_world) as [[o t] w'] eqn:E.
  destruct (getApiKey_resolves sample_Quote World in_memory sample_config
              "cert-manager" sample_world o t w' E)
    as (sec & err & Hh & _ & _ & _ & Hkey).
  vm_compute in Hh. injection Hh as <- <- <-.
  destruct (Hkey (String.list_byte_of_string "s3cr3t") eq_refl eq_refl)
    as (apiKey & Ho & Hk & _).
  exists apiKey. split; [exact Ho | exact Hk].
Defined.

Lemma extractRootAndSubDomain_partial_witness :
  extractRootAndSubDomain "com" "_acme-challenge" = None
  /\ (run in_memory (Present sample_Unmarshal sample_Quote tld_challenge)
        sample_world).1.1
     = Panicked.
Proof.
  split.
  - apply (proj1 (extractRootAndSubDomain_partial sample_Unmarshal sample_Quote
                    World in_memory)).
    vm_compute. lia.
  - destruct (run in_memory (Present sample_Unmarshal sample_Quote tld_challenge)
                sample_world) as [[o t] w'] eqn:E.
    apply (proj2 (proj2 (extractRootAndSubDomain_partial sample_Unmarshal
                           sample_Quote World in_memory))
             tld_challenge sample_world o t w' (or_introl E)).
    vm_compute in E. injection E as <- <- <-.
    split; [reflexivity|]. split; [reflexivity|]. vm_compute. lia.
Defined.

Lemma extractRootAndSubDomain_error_nil_witness :
  match extractRootAndSubDomain "example.com" "_acme-challenge.foo" with
  | Some (_, _, err) => err = nil
  | None => False
  end
  /\ String.prefix "unable to mange provided domain"
       "unable to create TXT record: 403 Forbidden"
     = false.
Proof.
  split.
  - destruct (extractRootAndSubDomain "example.com" "_acme-challenge.foo")
      as [[[root sub] err]|] eqn:E.
    + apply (proj1 (extractRootAndSubDomain_error_nil sample_Unmarshal
                      sample_Quote World in_memory)
               "example.com" "_acme-challenge.foo" root sub err).
      exact E.
    + vm_compute in E. discriminate E.
  - destruct (run in_memory sample_Present sample_world_readonly)
      as [[o t] w'] eqn:E.
    apply (proj2 (extractRootAndSubDomain_error_nil sample_Unmarshal
                    sample_Quote World in_memory)
             sample_challenge sample_world_readonly o t w'
             "unable to create TXT record: 403 Forbidden" (or_introl E)).
    vm_compute in E. injection E as <- <- <-. reflexivity.
Defined.

(** C6, as the code has it: the calls of [CleanUp] go through a client built
    in debug mode, those of [Present] through one that is not; neither is in
    dry-run mode, and both hold the resolved API key. *)
Theorem CleanUp_client_in_debug_mode :
  clients (run in_memory sample_CleanUp sample_world_presented).1.2
  = [sample_client true; sample_client true]
  /\ clients (run in_memory sample_Present sample_world).1.2
     = [sample_client false; sample_client false].
Proof. split; vm_compute; reflexivity. Qed.

(** Presenting the same key twice: one create, then nothing to write. *)
Example Present_twice :
  creates (run in_memory sample_Present sample_world).1.2
  = [CCreate (sample_client false) "example.com" "_acme-challenge.foo" "TXT" 300
       ["abc123"] ({| livedns.Code := 201; livedns.Message := "ok" |}, nil)]
  /\ creates (run in_memory sample_Present sample_world_presented).1.2 = []
  /\ updates (run in_memory sample_Present sample_world_presented).1.2 = [].
Proof. repeat split; vm_compute; reflexivity. Qed.

Example extract_undefined :
  extractRootAndSubDomain "com" "x" = None
  /\ extractRootAndSubDomain "" "x" = None
  /\ extractRootAndSubDomain "..." "x" = None
  /\ labels "..." = [""].
Proof. repeat split; reflexivity. Qed.


(** * Further properties *)

(** ** More on strings *)

Lemma trimLeftByte_cons (s : string) (c : ascii) :
  trimLeftByte (String c s) c = trimLeftByte s c.
Proof. simpl. now rewrite Ascii.eqb_refl. Qed.

Lemma Trim_snoc (s : string) (c : ascii) : Trim (s +:+ String c "") c = Trim s c.
Proof. unfold Trim. now rewrite trimRightByte_snoc. Qed.

Lemma Trim_cons (s : string) (c : ascii) : Trim (String c s) c = Trim s c.
Proof.
  unfold Trim. cbn [trimRightByte].
  destruct (trimRightByte s c) as [|a r] eqn:E.
  - now rewrite Ascii.eqb_refl.
  - apply trimLeftByte_cons.
Qed.

Lemma Join_app (l1 l2 : list string) (sep : string) :
  l1 <> [] -> l2 <> [] ->
  Join (l1 ++ l2) sep = Join l1 sep +:+ sep +:+ Join l2 sep.
Proof.
  intros H1 H2. induction l1 as [|e [|e' l1] IH]; [congruence| |].
  - simpl app. now rewrite Join_cons.
  - change ((e :: e' :: l1) ++ l2) with (e :: (e' :: l1) ++ l2).
    rewrite !Join_cons by (simpl; congruence).
    rewrite IH by congruence. now rewrite !app_assoc_string.
Qed.

(** Splitting distributes over a separator between two strings. *)
Lemma Split_app_sep (x y : string) (c : ascii) :
  Split (x +:+ String c y) c = Split x c ++ Split y c.
Proof.
  induction x as [|a x IH]; cbn [String.append Split].
  - now rewrite Ascii.eqb_refl.
  - destruct (Ascii.eqb a c); [now rewrite IH|].
    rewrite IH. pose proof (Split_length x c).
    destruct (Split x c); [simpl in *; lia | reflexivity].
Qed.

(** No piece of a split holds the separator: splitting it again gives the
    piece alone. *)
Lemma Split_pieces (s : string) (c : ascii) :
  Forall (fun p => Split p c = [p]) (Split s c).
Proof.
  induction s as [|a s IH]; cbn [Split].
  - repeat constructor.
  - destruct (Ascii.eqb a c) eqn:E.
    + constructor; [reflexivity | exact IH].
    + destruct (Split s c) as [|p ps]; [repeat constructor; simpl; now rewrite E|].
      inversion IH as [|? ? Hp Hps]; subst. constructor; [|exact Hps].
      cbn [Split]. now rewrite E, Hp.
Qed.

(** ** More on the domain split *)

(** X1: a domain whose dot-trimmed form has exactly two labels is its own
    root: the split returns the dot-trimmed domain as root and the
    dot-trimmed entry as subdomain. *)
Theorem extractRootAndSubDomain_two_labels (fqdn entry : string) :
  length (labels fqdn) = 2%nat ->
  extractRootAndSubDomain fqdn entry = Some (Trim fqdn dot, Trim entry dot, nil).
Proof.
  intros H. destruct (labels fqdn) as [|a [|b [|? ?]]] eqn:E; try discriminate H.
  rewrite (extract_of_labels fqdn entry [] a b E).
  pose proof (Join_Split (Trim fqdn dot) dot) as HJ.
  fold (labels fqdn) in HJ. rewrite E in HJ.
  change (Join [a; b] (String dot "")) with (a +:+ "." +:+ b) in HJ.
  now rewrite HJ.
Qed.

Lemma extractRootAndSubDomain_two_labels_witness :
  extractRootAndSubDomain ".example.com." "_acme-challenge.foo."
  = Some ("example.com", "_acme-challenge.foo", nil).
Proof.
  apply (extractRootAndSubDomain_two_labels ".example.com." "_acme-challenge.foo.").
  reflexivity.
Defined.

Lemma extract_recomposes (fqdn entry root sub : string) (err : error) :
  extractRootAndSubDomain fqdn entry = Some (root, sub, err) ->
  sub +:+ "." +:+ root = Trim entry dot +:+ "." +:+ Trim fqdn dot.
Proof.
  intros H.
  assert (Hlen : (2 <= length (labels fqdn))%nat)
    by (apply (extract_defined_iff fqdn entry); eauto).
  apply last_two_inv in Hlen as (pre & a & b & Hl).
  rewrite (extract_of_labels fqdn entry pre a b Hl) in H.
  injection H as <- <- _.
  pose proof (Join_Split (Trim fqdn dot) dot) as HJ.
  fold (labels fqdn) in HJ. rewrite Hl in HJ.
  change (String dot "") with "." in HJ.
  rewrite <- HJ.
  change (a +:+ "." +:+ b) with (Join [a; b] ".").
  destruct pre as [|p pre].
  - reflexivity.
  - rewrite (Join_app (p :: pre) [a; b]) by congruence.
    rewrite app_assoc_string. reflexivity.
Qed.

(** X2: whenever the split is defined, subdomain, a dot and root spell the
    dot-trimmed entry, a dot and the dot-trimmed domain: the split only moves
    the boundary between the two. *)
Theorem extractRootAndSubDomain_recomposes
    (fqdn entry root sub : string) (err : error) :
  extractRootAndSubDomain fqdn entry = Some (root, sub, err) ->
  sub +:+ "." +:+ root = Trim entry dot +:+ "." +:+ Trim fqdn dot.
Proof.
  exact (extract_recomposes fqdn entry root sub err).
Qed.

Lemma extractRootAndSubDomain_recomposes_witness :
  "_acme-challenge.a.b" +:+ "." +:+ "example.com"
  = Trim "_acme-challenge" dot +:+ "." +:+ Trim "a.b.example.com" dot.
Proof.
  apply (extractRootAndSubDomain_recomposes "a.b.example.com" "_acme-challenge"
           "example.com" "_acme-challenge.a.b" nil).
  reflexivity.
Defined.

(** X3: a dot added in front of or behind the domain or the entry does not
    change the split. *)
Theorem extractRootAndSubDomain_ignores_outer_dots (fqdn entry : string) :
  extractRootAndSubDomain (fqdn +:+ ".") entry = extractRootAndSubDomain fqdn entry
  /\ extractRootAndSubDomain (String dot fqdn) entry
     = extractRootAndSubDomain fqdn entry
  /\ extractRootAndSubDomain fqdn (entry +:+ ".")
     = extractRootAndSubDomain fqdn entry
  /\ extractRootAndSubDomain fqdn (String dot entry)
     = extractRootAndSubDomain fqdn entry.
Proof.
  unfold extractRootAndSubDomain.
  change "."%string with (String dot "").
  now rewrite !Trim_snoc, !Trim_cons.
Qed.

Lemma Split_Join_pieces (first : string) (rest : list string) (c : ascii) :
  Forall (fun p => Split p c = [p]) rest ->
  Split (Join (first :: rest) (String c "")) c = Split first c ++ rest.
Proof.
  revert first. induction rest as [|p rest IH]; intros first H.
  - simpl. now rewrite app_nil_r.
  - inversion H as [|? ? Hp Hrest]; subst.
    rewrite Join_cons by congruence.
    change (String c "" +:+ Join (p :: rest) (String c ""))
      with (String c (Join (p :: rest) (String c ""))).
    rewrite Split_app_sep, (IH p Hrest), Hp. reflexivity.
Qed.

(** X4: whenever the split is defined, the root has exactly two labels, the
    labels of the domain are some labels followed by those of the root, and
    the labels of the subdomain are the labels of the dot-trimmed entry
    followed by those same labels. *)
Theorem extractRootAndSubDomain_labels
    (fqdn entry root sub : string) (err : error) :
  extractRootAndSubDomain fqdn entry = Some (root, sub, err) ->
  length (Split root dot) = 2%nat
  /\ (exists pre : list string,
         labels fqdn = pre ++ Split root dot
         /\ Split sub dot = Split (Trim entry dot) dot ++ pre).
Proof.
  intros H.
  assert (Hlen : (2 <= length (labels fqdn))%nat)
    by (apply (extract_defined_iff fqdn entry); eauto).
  apply last_two_inv in Hlen as (pre & a & b & Hl).
  rewrite (extract_of_labels fqdn entry pre a b Hl) in H.
  injection H as <- <- _.
  pose proof (Split_pieces (Trim fqdn dot) dot) as Hp.
  fold (labels fqdn) in Hp. rewrite Hl in Hp.
  apply Forall_app in Hp as [Hpre Hab].
  inversion Hab as [|? ? Ha Hb']; subst. inversion Hb' as [|? ? Hb _]; subst.
  assert (HR : Split (a +:+ String dot b) dot = [a; b])
    by now rewrite Split_app_sep, Ha, Hb.
  assert (HS : Split (Join (Trim entry dot :: pre) (String dot "")) dot
               = Split (Trim entry dot) dot ++ pre)
    by now apply Split_Join_pieces.
  split; [exact (f_equal length HR)|].
  exists pre. split; [|exact HS].
  rewrite Hl. f_equal. symmetry. exact HR.
Qed.

Lemma extractRootAndSubDomain_labels_witness :
  length (Split "example.com" dot) = 2%nat
  /\ (exists pre : list string,
         labels "a.b.example.com" = pre ++ Split "example.com" dot
         /\ Split "_acme-challenge.a.b" dot
            = Split (Trim "_acme-challenge" dot) dot ++ pre).
Proof.
  apply (extractRootAndSubDomain_labels "a.b.example.com" "_acme-challenge"
           "example.com" "_acme-challenge.a.b" nil).
  reflexivity.
Defined.

(** ** More on entry and domain *)

(** X5: when the FQDN does not end with the zone, nothing of the zone is
    taken off: the entry is the whole FQDN without one trailing dot. *)
Theorem getDomainAndEntry_foreign_zone (ch : v1alpha1.ChallengeRequest) :
  HasSuffix (v1alpha1.ResolvedFQDN ch) (v1alpha1.ResolvedZone ch) = false ->
  getDomainAndEntry ch
  = (strip_trailing_dot (v1alpha1.ResolvedFQDN ch),
     strip_trailing_dot (v1alpha1.ResolvedZone ch)).
Proof.
  intros H. unfold getDomainAndEntry.
  rewrite (TrimSuffix_no_suffix _ _ H). now rewrite !TrimSuffix_dot.
Qed.

Lemma getDomainAndEntry_foreign_zone_witness :
  getDomainAndEntry
    {| v1alpha1.ResourceNamespace := "cert-manager";
       v1alpha1.ResolvedZone := "example.org.";
       v1alpha1.ResolvedFQDN := "_acme-challenge.example.com.";
       v1alpha1.Key := "abc123";
       v1alpha1.Config := None |}
  = ("_acme-challenge.example.com", "example.org").
Proof.
  apply (getDomainAndEntry_foreign_zone
           {| v1alpha1.ResourceNamespace := "cert-manager";
              v1alpha1.ResolvedZone := "example.org.";
              v1alpha1.ResolvedFQDN := "_acme-challenge.example.com.";
              v1alpha1.Key := "abc123";
              v1alpha1.Config := None |}).
  reflexivity.
Defined.

Lemma getDomainAndEntry_canonical
    (ch : v1alpha1.ChallengeRequest) (e d : string) :
  v1alpha1.ResolvedZone ch = d +:+ "." ->
  v1alpha1.ResolvedFQDN ch = e +:+ "." +:+ d +:+ "." ->
  getDomainAndEntry ch = (e, d).
Proof.
  intros Hz Hf. unfold getDomainAndEntry. rewrite Hz, Hf.
  rewrite <- (app_assoc_string e "." (d +:+ ".")).
  now rewrite !TrimSuffix_app.
Qed.

(** X6: for a zone [d.] and the FQDN [e.d.], the entry is [e] and the domain
    is [d]. *)
Theorem getDomainAndEntry_round_trip
    (ch : v1alpha1.ChallengeRequest) (e d : string) :
  v1alpha1.ResolvedZone ch = d +:+ "." ->
  v1alpha1.ResolvedFQDN ch = e +:+ "." +:+ d +:+ "." ->
  getDomainAndEntry ch = (e, d).
Proof.
  exact (getDomainAndEntry_canonical ch e d).
Qed.

Lemma getDomainAndEntry_round_trip_witness :
  getDomainAndEntry sample_challenge = ("_acme-challenge.foo", "example.com").
Proof.
  apply (getDomainAndEntry_round_trip sample_challenge
           "_acme-challenge.foo" "example.com"); reflexivity.
Defined.

(** ** More on the runs of the solver *)

(** Replay a program on the answers a run of another one got. *)
Ltac replay :=
  repeat (cbv beta iota zeta;
          first
            [ rewrite run_remote
            | rewrite run_lift
            | rewrite run_remote_last
            | rewrite run_lift_last
            | rewrite run_Ret
            | rewrite run_bind
            | match goal with
              | E : ?h _ _ _ = _ |- context [?h _ _ _] => rewrite E
              | E : getDomainAndEntry _ = _ |- _ => rewrite E
              | E : extractRootAndSubDomain _ _ = _ |- _ => rewrite E
              | E : corev1.Data _ !! _ = _ |- _ => rewrite E
              end ]).

Ltac unfold_Present := unfold Present.
Ltac unfold_CleanUp := unfold CleanUp.
Ltac unfold_getApiKey_goal := unfold getApiKey.

Section MoreSolverFacts.

Variable json_Unmarshal :
  list byte -> gandiDNSProviderConfig -> gandiDNSProviderConfig * error.
Variable strconv_Quote : string -> string.
Variable W : Type.
Variable h : env W.

Abbreviation loadConfig := (loadConfig json_Unmarshal).
Abbreviation getApiKey := (getApiKey strconv_Quote).
Abbreviation Present := (Present json_Unmarshal strconv_Quote).
Abbreviation CleanUp := (CleanUp json_Unmarshal strconv_Quote).

Lemma Present_targets (ch : v1alpha1.ChallengeRequest) (w : W)
    (o : outcome error) (t : list Call) (w' : W) :
  run h (Present ch) w = (o, t, w') ->
  Forall (fun tg =>
            extractRootAndSubDomain (getDomainAndEntry ch).2 (getDomainAndEntry ch).1
            = Some (tg.1.1, tg.1.2, nil)
            /\ tg.2 = "TXT")
         (targets t).
Proof.
  intros H. solver_cases H; cbn [fst snd].
  all: repeat first
         [ apply List.Forall_nil
         | apply List.Forall_cons; [split; [assumption | reflexivity]|] ].
Qed.

Lemma CleanUp_targets (ch : v1alpha1.ChallengeRequest) (w : W)
    (o : outcome error) (t : list Call) (w' : W) :
  run h (CleanUp ch) w = (o, t, w') ->
  Forall (fun tg =>
            extractRootAndSubDomain (getDomainAndEntry ch).2 (getDomainAndEntry ch).1
            = Some (tg.1.1, tg.1.2, nil)
            /\ tg.2 = "TXT")
         (targets t).
Proof.
  intros H. solver_cases H; cbn [fst snd].
  all: repeat first
         [ apply List.Forall_nil
         | apply List.Forall_cons; [split; [assumption | reflexivity]|] ].
Qed.

Lemma solver_targets (ch : v1alpha1.ChallengeRequest) (w : W)
    (o : outcome error) (t : list Call) (w' : W) (fqdn name ty : string) :
  run h (Present ch) w = (o, t, w') \/ run h (CleanUp ch) w = (o, t, w') ->
  In (fqdn, name, ty) (targets t) ->
  extractRootAndSubDomain (getDomainAndEntry ch).2 (getDomainAndEntry ch).1
  = Some (fqdn, name, nil)
  /\ ty = "TXT".
Proof.
  intros H Hin.
  assert (HF : Forall (fun tg =>
            extractRootAndSubDomain (getDomainAndEntry ch).2 (getDomainAndEntry ch).1
            = Some (tg.1.1, tg.1.2, nil)
            /\ tg.2 = "TXT") (targets t))
    by (destruct H as [H|H];
        [exact (Present_targets ch w o t w' H) | exact (CleanUp_targets ch w o t w' H)]).
  rewrite Forall_forall in HF. apply list_elem_of_In in Hin.
  exact (HF (fqdn, name, ty) Hin).
Qed.

(** X7: every provider call of a run of [Present] or [CleanUp] is about the
    root and the subdomain of the split of that challenge, with type TXT. *)
Theorem solver_calls_one_target (ch : v1alpha1.ChallengeRequest) (w : W)
    (o : outcome error) (t : list Call) (w' : W) (fqdn name ty : string) :
  run h (Present ch) w = (o, t, w') \/ run h (CleanUp ch) w = (o, t, w') ->
  In (fqdn, name, ty) (targets t) ->
  extractRootAndSubDomain (getDomainAndEntry ch).2 (getDomainAndEntry ch).1
  = Some (fqdn, name, nil)
  /\ ty = "TXT".
Proof.
  exact (solver_targets ch w o t w' fqdn name ty).
Qed.

(** X8: for a zone [d.] and the FQDN [e.d.], where [d] and [e] neither start
    nor end with a dot, every provider call of [Present] or [CleanUp] is
    about a record whose name, a dot, its zone and a dot spell the FQDN of
    the challenge. *)
Theorem solver_calls_at_fqdn (ch : v1alpha1.ChallengeRequest) (e d : string)
    (w : W) (o : outcome error) (t : list Call) (w' : W) (fqdn name ty : string) :
  v1alpha1.ResolvedZone ch = d +:+ "." ->
  v1alpha1.ResolvedFQDN ch = e +:+ "." +:+ d +:+ "." ->
  Trim d dot = d ->
  Trim e dot = e ->
  run h (Present ch) w = (o, t, w') \/ run h (CleanUp ch) w = (o, t, w') ->
  In (fqdn, name, ty) (targets t) ->
  name +:+ "." +:+ fqdn +:+ "." = v1alpha1.ResolvedFQDN ch /\ ty = "TXT".
Proof.
  intros Hz Hf Hd He H Hin.
  destruct (solver_targets ch w o t w' fqdn name ty H Hin) as [Hx Hty].
  split; [|exact Hty].
  rewrite (getDomainAndEntry_canonical ch e d Hz Hf) in Hx. cbn [fst snd] in Hx.
  apply extract_recomposes in Hx. rewrite Hd, He in Hx.
  rewrite Hf.
  transitivity ((name +:+ "." +:+ fqdn) +:+ ".");
    [now rewrite !app_assoc_string|].
  rewrite Hx. now rewrite !app_assoc_string.
Qed.

(** X9: [Present] never makes a delete call; [CleanUp] never makes a create
    or an update call. *)
Theorem solver_never_writes_other_kind (ch : v1alpha1.ChallengeRequest) (w : W)
    (o : outcome error) (t : list Call) (w' : W) :
  (run h (Present ch) w = (o, t, w') -> deletes t = [])
  /\ (run h (CleanUp ch) w = (o, t, w') -> creates t = [] /\ updates t = []).
Proof.
  split; intros H; solver_cases H; repeat split; reflexivity.
Qed.

(** X10: a run of [Present] or [CleanUp] makes at most three calls: the
    first, if any, fetches the secret, the second looks the record up, the
    third writes. *)
Theorem solver_call_order (ch : v1alpha1.ChallengeRequest) (w : W)
    (o : outcome error) (t : list Call) (w' : W) :
  run h (Present ch) w = (o, t, w') \/ run h (CleanUp ch) w = (o, t, w') ->
  (length t <= 3)%nat
  /\ (forall c, t !! 0%nat = Some c -> is_secrets_get c = true)
  /\ (forall c, t !! 1%nat = Some c -> is_lookup c = true)
  /\ (forall c, t !! 2%nat = Some c ->
                is_create c || is_update c || is_delete c = true).
Proof.
  intros [H|H]; solver_cases H.
  all: split; [simpl; lia|].
  all: repeat split; intros c Hc; cbn in Hc; simplify_eq; reflexivity.
Qed.

(** X11: every provider client of a run carries, as its API key, the bytes
    that the secret fetched first in that run holds under the configured
    key, as a string; the secret is the one named in the configuration, in
    the namespace of the challenge; no client is in dry-run mode. *)
Theorem solver_api_key_from_secret (ch : v1alpha1.ChallengeRequest) (w : W)
    (o : outcome error) (t : list Call) (w' : W) (cl : livedns.LiveDNS) :
  run h (Present ch) w = (o, t, w') \/ run h (CleanUp ch) w = (o, t, w') ->
  In cl (clients t) ->
  exists (sec : corev1.Secret) (secBytes : list byte),
    t !! 0%nat
    = Some (CSecretsGet (v1alpha1.ResourceNamespace ch)
              (cmmeta.Name (cmmeta.LocalObjectReference
                              (APIKeySecretRef (loadConfig (v1alpha1.Config ch)).1)))
              (sec, nil))
    /\ corev1.Data sec
       !! cmmeta.Key (APIKeySecretRef (loadConfig (v1alpha1.Config ch)).1)
       = Some secBytes
    /\ config.APIKey (livedns.client_config cl)
       = String.string_of_list_byte secBytes
    /\ config.DryRun (livedns.client_config cl) = false.
Proof.
  intros [H|H] Hin; solver_cases H; cbn [fst snd].
  all: cbn in Hin;
    repeat match type of Hin with
           | _ \/ _ => destruct Hin as [Hin|Hin]
           | False => destruct Hin
           end;
    subst cl.
  all: do 2 eexists; split; [reflexivity|]; split; [eassumption|];
    split; reflexivity.
Qed.

(** X12: when the decoder rejects the configuration of the challenge,
    [Present] and [CleanUp] make no call, leave the services as they are and
    return the error of the decoder under both contexts. *)
Theorem solver_config_rejected (ch : v1alpha1.ChallengeRequest)
    (j : extapi.JSON) (cfg : gandiDNSProviderConfig) (e : string) (w : W) :
  v1alpha1.Config ch = Some j ->
  json_Unmarshal (extapi.Raw j) zero_config = (cfg, Some e) ->
  run h (Present ch) w
  = (Returned (Some ("unable to load config: error decoding solver config: " +:+ e)),
     [], w)
  /\ run h (CleanUp ch) w
     = (Returned (Some ("unable to load config: error decoding solver config: " +:+ e)),
        [], w).
Proof.
  intros Hc Hu.
  assert (Hl : loadConfig (v1alpha1.Config ch)
               = (cfg, Some ("error decoding solver config: " +:+ e)))
    by (rewrite Hc; unfold_loadConfig; now rewrite Hu).
  split.
  - unfold_Present. rewrite Hl. reflexivity.
  - unfold_CleanUp. rewrite Hl. reflexivity.
Qed.

(** X13: when no credential is obtained, the run is the one fetch of the
    secret: no provider call is made, and the error returned starts with
    the context of the API key. *)
Theorem solver_credential_failed (ch : v1alpha1.ChallengeRequest) (w : W)
    (o : outcome error) (t : list Call) (w' : W) :
  run h (Present ch) w = (o, t, w') \/ run h (CleanUp ch) w = (o, t, w') ->
  existsb (credential_failed (loadConfig (v1alpha1.Config ch)).1) t = true ->
  length t = 1%nat
  /\ clients t = []
  /\ exists msg : string, o = Returned (Some ("unable to get API key: " +:+ msg)).
Proof.
  intros [H|H] Hc; solver_cases H; cbn [fst snd] in Hc.
  all: cbn [existsb credential_failed orb] in Hc.
  all: repeat match goal with
              | E : corev1.Data _ !! _ = _ |- _ => rewrite E in Hc
              end.
  all: try discriminate Hc.
  all: split; [reflexivity|]; split; [reflexivity|]; eexists; reflexivity.
Qed.

(** X14: a run that makes no provider call is a run of [Present] exactly
    when it is a run of [CleanUp]: up to the lookup the two do the same,
    with the same outcome. *)
Theorem solver_same_before_provider (ch : v1alpha1.ChallengeRequest) (w : W)
    (o : outcome error) (t : list Call) (w' : W) :
  clients t = [] ->
  run h (Present ch) w = (o, t, w') <-> run h (CleanUp ch) w = (o, t, w').
Proof.
  intros Hcl. split; intros H.
  - solver_cases H; try discriminate Hcl.
    all: unfold_CleanUp; unfold_getApiKey_goal; rewrite Ecfg; replay; reflexivity.
  - solver_cases H; try discriminate Hcl.
    all: unfold_Present; unfold_getApiKey_goal; rewrite Ecfg; replay; reflexivity.
Qed.



(** X17: [Present] returns nil exactly when the provider accepted a write
    or the lookup found a record whose values, concatenated, are the
    challenge key in double quotes. *)
Theorem Present_nil_iff (ch : v1alpha1.ChallengeRequest) (w : W)
    (o : outcome error) (t : list Call) (w' : W) :
  run h (Present ch) w = (o, t, w') ->
  o = Returned nil
  <-> (existsb write_succeeded t = true
       \/ exists (cl : livedns.LiveDNS) (fqdn name ty : string)
                 (rec : livedns.DomainRecord),
            In (CGet cl fqdn name ty (rec, nil)) t
            /\ Join (livedns.RrsetValues rec) ""
               = dquote +:+ v1alpha1.Key ch +:+ dquote).
Proof.
  intros H. solver_cases H; key_test.
  all: cbn [existsb write_succeeded orb].
  all: split;
    [ intros Ho; first [ discriminate Ho
                       | left; reflexivity
                       | right; do 5 eexists; split; [right; left; reflexivity | assumption] ]
    | intros [Hw | (cl & f & n & ty & rec & Hin & Hj)];
      [ first [discriminate Hw | reflexivity]
      | in_calls Hin; first [reflexivity | contradiction] ] ].
Qed.

(** X18: [CleanUp] returns nil exactly when the provider accepted the
    delete or the lookup failed. *)
Theorem CleanUp_nil_iff (ch : v1alpha1.ChallengeRequest) (w : W)
    (o : outcome error) (t : list Call) (w' : W) :
  run h (CleanUp ch) w = (o, t, w') ->
  o = Returned nil
  <-> (existsb write_succeeded t = true
       \/ exists (cl : livedns.LiveDNS) (fqdn name ty : string)
                 (rec : livedns.DomainRecord) (e : string),
            In (CGet cl fqdn name ty (rec, Some e)) t).
Proof.
  intros H. solver_cases H.
  all: cbn [existsb write_succeeded orb].
  all: split;
    [ intros Ho; first [ discriminate Ho
                       | left; reflexivity
                       | right; do 6 eexists; right; left; reflexivity ]
    | intros [Hw | (cl & f & n & ty & rec & e' & Hin)];
      [ first [discriminate Hw | reflexivity]
      | in_calls Hin; reflexivity ] ].
Qed.

End MoreSolverFacts.

(** ** The further properties on the sample challenge *)

Lemma solver_calls_one_target_witness :
  extractRootAndSubDomain (getDomainAndEntry sample_challenge).2
    (getDomainAndEntry sample_challenge).1
  = Some ("example.com", "_acme-challenge.foo", nil)
  /\ "TXT" = "TXT".
Proof.
  destruct (run in_memory sample_Present sample_world) as [[o t] w'] eqn:E.
  apply (solver_calls_one_target sample_Unmarshal sample_Quote World in_memory
           sample_challenge sample_world o t w'
           "example.com" "_acme-challenge.foo" "TXT" (or_introl E)).
  vm_compute in E. injection E as <- <- <-. left. reflexivity.
Defined.

Lemma solver_calls_at_fqdn_witness :
  "_acme-challenge.foo" +:+ "." +:+ "example.com" +:+ "."
  = v1alpha1.ResolvedFQDN sample_challenge
  /\ "TXT" = "TXT".
Proof.
  destruct (run in_memory sample_CleanUp sample_world_presented)
    as [[o t] w'] eqn:E.
  apply (solver_calls_at_fqdn sample_Unmarshal sample_Quote World in_memory
           sample_challenge "_acme-challenge.foo" "example.com"
           sample_world_presented o t w'
           "example.com" "_acme-challenge.foo" "TXT"
           eq_refl eq_refl eq_refl eq_refl (or_intror E)).
  vm_compute in E. injection E as <- <- <-. left. reflexivity.
Defined.

Lemma solver_never_writes_other_kind_witness :
  deletes (run in_memory sample_Present sample_world).1.2 = []
  /\ creates (run in_memory sample_CleanUp sample_world_presented).1.2 = []
  /\ updates (run in_memory sample_CleanUp sample_world_presented).1.2 = [].
Proof.
  split.
  - destruct (run in_memory sample_Present sample_world) as [[o t] w'] eqn:E.
    exact (proj1 (solver_never_writes_other_kind sample_Unmarshal sample_Quote
                    World in_memory sample_challenge sample_world o t w') E).
  - destruct (run in_memory sample_CleanUp sample_world_presented)
      as [[o t] w'] eqn:E.
    exact (proj2 (solver_never_writes_other_kind sample_Unmarshal sample_Quote
                    World in_memory sample_challenge sample_world_presented
                    o t w') E).
Defined.

Lemma solver_call_order_witness :
  (length (run in_memory sample_Present sample_world).1.2 <= 3)%nat.
Proof.
  destruct (run in_memory sample_Present sample_world) as [[o t] w'] eqn:E.
  exact (proj1 (solver_call_order sample_Unmarshal sample_Quote World in_memory
                  sample_challenge sample_world o t w' (or_introl E))).
Defined.

Lemma solver_api_key_from_secret_witness :
  exists (sec : corev1.Secret) (secBytes : list byte),
    corev1.Data sec !! "api-token" = Some secBytes
    /\ "s3cr3t" = String.string_of_list_byte secBytes.
Proof.
  destruct (run in_memory sample_Present sample_world) as [[o t] w'] eqn:E.
  destruct (solver_api_key_from_secret sample_Unmarshal sample_Quote World
              in_memory sample_challenge sample_world o t w'
              (sample_client false) (or_introl E))
    as (sec & b & _ & Hb & Hk & _).
  - vm_compute in E. injection E as <- <- <-. left. reflexivity.
  - exists sec, b. split; [exact Hb | exact Hk].
Defined.

Lemma solver_config_rejected_witness :
  run in_memory (Present sample_Unmarshal sample_Quote bad_config_challenge)
    sample_world
  = (Returned
       (Some ("unable to load config: error decoding solver config: "
              +:+ "invalid character")),
     [], sample_world).
Proof.
  apply (solver_config_rejected sample_Unmarshal sample_Quote World in_memory
           bad_config_challenge
           {| extapi.Raw := String.list_byte_of_string "{" |}
           zero_config "invalid character" sample_world);
    reflexivity.
Defined.

Lemma solver_credential_failed_witness :
  length (run in_memory sample_Present sample_world_no_secret).1.2 = 1%nat
  /\ clients (run in_memory sample_Present sample_world_no_secret).1.2 = []
  /\ exists msg : string,
       (run in_memory sample_Present sample_world_no_secret).1.1
       = Returned (Some ("unable to get API key: " +:+ msg)).
Proof.
  destruct (run in_memory sample_Present sample_world_no_secret)
    as [[o t] w'] eqn:E.
  apply (solver_credential_failed sample_Unmarshal sample_Quote World in_memory
           sample_challenge sample_world_no_secret o t w' (or_introl E)).
  vm_compute in E. injection E as <- <- <-. reflexivity.
Defined.

Lemma solver_same_before_provider_witness :
  run in_memory sample_CleanUp sample_world_no_secret
  = run in_memory sample_Present sample_world_no_secret.
Proof.
  destruct (run in_memory sample_Present sample_world_no_secret)
    as [[o t] w'] eqn:E.
  apply (solver_same_before_provider sample_Unmarshal sample_Quote World
           in_memory sample_challenge sample_world_no_secret o t w').
  - vm_compute in E. injection E as <- <- <-. reflexivity.
  - exact E.
Defined.



Lemma Present_nil_iff_witness :
  (run in_memory sample_Present sample_world).1.1 = Returned nil.
Proof.
  destruct (run in_memory sample_Present sample_world) as [[o t] w'] eqn:E.
  apply (Present_nil_iff sample_Unmarshal sample_Quote World in_memory
           sample_challenge sample_world o t w' E).
  left. vm_compute in E. injection E as <- <- <-. reflexivity.
Defined.

Lemma CleanUp_nil_iff_witness :
  (run in_memory sample_CleanUp sample_world).1.1 = Returned nil.
Proof.
  destruct (run in_memory sample_CleanUp sample_world) as [[o t] w'] eqn:E.
  apply (CleanUp_nil_iff sample_Unmarshal sample_Quote World in_memory
           sample_challenge sample_world o t w' E).
  right. exists (sample_client true), "example.com", "_acme-challenge.foo", "TXT",
    no_record, "404 Not Found".
  vm_compute in E. injection E as <- <- <-. right. left. reflexivity.
Defined.
